(** * tastypie_services.services: a shallow embedding and its properties

    The module [src/tastypie_services/services.py] defines three read-only
    REST resources (error, settings, status) on top of tastypie and Django,
    and the shared 500-error formatter [_handle_500].

    Python objects become records, exceptions become values of an error
    monad, and the observable calls into collaborators (logging, mail,
    stdout) are collected in a trace of events. *)

From Stdlib Require Import ZArith String Ascii List.
From stdpp Require Import base option list gmap strings sorting.

Local Open Scope string_scope.
Local Open Scope Z_scope.
Local Open Scope list_scope.

(** ** Python values *)

(** Scalars, as they occur as attributes of a status object and as return
    values of its probes. *)
Inductive pyatom : Type :=
| PyNone
| PyBool (b : bool)
| PyStr (s : string).

(** JSON-like values: what a settings snapshot holds and what the error
    payload is made of. A dict keeps its items in source order. *)
#[warnings="-register-all"]
Inductive pyval : Type :=
| PyAtom (a : pyatom)
| PyList (xs : list pyval)
| PyDict (items : list (string * pyval)).

Coercion PyAtom : pyatom >-> pyval.

(** Truth value testing, [bool(v)]. *)
Definition truthy (a : pyatom) : bool :=
  match a with
  | PyNone => false
  | PyBool b => b
  | PyStr s => negb (String.eqb s "")
  end.

(** ['%s' % v], that is [str(v)]. *)
Definition py_str (a : pyatom) : string :=
  match a with
  | PyNone => "None"
  | PyBool true => "True"
  | PyBool false => "False"
  | PyStr s => s
  end.

(** [sep.join(xs)] *)
Fixpoint join (sep : string) (xs : list string) : string :=
  match xs with
  | [] => ""
  | [x] => x
  | x :: rest => x +:+ sep +:+ join sep rest
  end.

(** [all(xs)] *)
Definition all (xs : list pyatom) : bool := forallb truthy xs.

(** The one-character string ['\n']. *)
Definition nl : string := String (ascii_of_nat 10) "".

(** [c in s], for a character [c]. *)
Fixpoint has_char (c : ascii) (s : string) : bool :=
  match s with
  | EmptyString => false
  | String c' rest => Ascii.eqb c c' || has_char c rest
  end.

(** Whether a header value holds a line break, ['\n'] or ['\r']. *)
Definition has_newline (s : string) : bool :=
  has_char (ascii_of_nat 10) s || has_char (ascii_of_nat 13) s.

(** [repr(s)] of a byte string: single quotes, or double quotes when the
    string holds a single quote and no double quote; the quote and the
    backslash are escaped, tab, newline and carriage return are written
    with their letter, and any other byte outside the printable ASCII
    range as a two-digit hexadecimal escape. *)
Definition hex_digit (n : N) : ascii :=
  match String.get (N.to_nat n) "0123456789abcdef" with
  | Some c => c
  | None => "0"%char
  end.

Definition repr_char (quote c : ascii) : string :=
  let n := N_of_ascii c in
  if Ascii.eqb c quote || Ascii.eqb c "\"%char
  then String "\" (String c "")
  else if N.eqb n 9 then "\t"
  else if N.eqb n 10 then "\n"
  else if N.eqb n 13 then "\r"
  else if N.ltb n 32 || N.leb 127 n
  then String "\" (String "x" (String (hex_digit (N.div n 16))
                                (String (hex_digit (N.modulo n 16)) "")))
  else String c "".

Fixpoint repr_chars (quote : ascii) (s : string) : string :=
  match s with
  | EmptyString => ""
  | String c rest => repr_char quote c +:+ repr_chars quote rest
  end.

Definition py_repr (s : string) : string :=
  let single := "'"%char in
  let double := ascii_of_nat 34 in
  let quote := if has_char single s && negb (has_char double s)
               then double else single in
  String quote (repr_chars quote s +:+ String quote "").

(** ** HTTP responses (tastypie.http) *)

Record HttpResponse : Type := mkResponse {
  status_code : Z;
  content : string;
  (* [None]: the caller passed no content type *)
  content_type : option string
}.

Definition HttpApplicationError (content : string) (content_type : string)
  : HttpResponse :=
  mkResponse 500 content (Some content_type).

Definition HttpNotFound : HttpResponse := mkResponse 404 "" None.

(** ** Exceptions *)

(** The exception classes the module names, and user subclasses of them.
    Only [Exception] and its subclasses are modelled, which is what the
    outer request boundary hands to [_handle_500]; intermediate library
    classes (StandardError, TastypieError) are left out of the hierarchy. *)
Inductive exn_class : Type :=
| Exception
| TestError                (* this module *)
| StatusError              (* this module *)
| NotImplementedError
| KeyError
| ImportError
| NotFound                 (* tastypie.exceptions *)
| ImmediateHttpResponse    (* tastypie.exceptions *)
| ObjectDoesNotExist       (* django.core.exceptions *)
| Subclass (name : string) (base : exn_class).

Global Instance exn_class_eq_dec : EqDecision exn_class.
Proof. solve_decision. Defined.

(** [cls.__name__] *)
Definition class_name (c : exn_class) : string :=
  match c with
  | Exception => "Exception"
  | TestError => "TestError"
  | StatusError => "StatusError"
  | NotImplementedError => "NotImplementedError"
  | KeyError => "KeyError"
  | ImportError => "ImportError"
  | NotFound => "NotFound"
  | ImmediateHttpResponse => "ImmediateHttpResponse"
  | ObjectDoesNotExist => "ObjectDoesNotExist"
  | Subclass name _ => name
  end.

(** [issubclass(c, d)] *)
Fixpoint issubclass (c d : exn_class) : bool :=
  bool_decide (c = d) ||
  match c with
  | Exception => false
  | Subclass _ base => issubclass base d
  | _ => bool_decide (d = Exception)
  end.

(** An exception instance: its class, [str(e)], and the attributes the
    module looks up with [getattr] ([None] when the attribute is absent). *)
Record exn : Type := mkExn {
  e_class : exn_class;
  e_str : string;
  e_id : option pyval;
  e_data : option pyval;
  e_response : option HttpResponse
}.

(** [cls(msg)] for a plain exception class. *)
Definition new_exn (cls : exn_class) (msg : string) : exn :=
  mkExn cls msg None None None.

(** [isinstance(e, (c1, ..., cn))] *)
Definition isinstance (e : exn) (classes : list exn_class) : bool :=
  existsb (issubclass (e_class e)) classes.

(** ** Effects: a trace of collaborator calls, and exceptions *)

Inductive result (A : Type) : Type :=
| Ok (a : A)
| Raise (e : exn).
Arguments Ok {A} a.
Arguments Raise {A} e.

Inductive event : Type :=
| LogError (logger msg : string) (status : Z)     (* log.error(...) *)
| MailAdmins (subject message : string) (fail_silently : bool)
| Print (line : string)                           (* print statement *)
| Invoke (method : string).                       (* obj.method() *)

Definition M (A : Type) : Type := list event * result A.

Global Instance M_ret : MRet M := λ A a, ([], Ok a).
Global Instance M_bind : MBind M := λ A B f m,
  match m with
  | (tr, Ok a) => let '(tr', r) := f a in (tr ++ tr', r)
  | (tr, Raise e) => (tr, Raise e)
  end.
Global Instance M_fmap : FMap M := λ A B f m,
  match m with
  | (tr, Ok a) => (tr, Ok (f a))
  | (tr, Raise e) => (tr, Raise e)
  end.

Definition raise {A} (e : exn) : M A := ([], Raise e).
Definition emit (ev : event) : M unit := ([ev], Ok tt).
Definition lift {A} (r : result A) : M A := ([], r).

(** [try: body  except Exception: handler] *)
Definition try_except {A} (body : M A) (handler : exn → M A) : M A :=
  match body with
  | (tr, Ok a) => (tr, Ok a)
  | (tr, Raise e) => let '(tr', r) := handler e in (tr ++ tr', r)
  end.

Definition trace {A} (m : M A) : list event := fst m.
Definition outcome {A} (m : M A) : result A := snd m.

(** ** Requests and process configuration *)

Record HttpRequest : Type := mkRequest {
  path : string;
  REMOTE_ADDR : option string;          (* request.META.get('REMOTE_ADDR') *)
  request_repr : result string          (* what repr(request) does *)
}.

(** The attributes of a status object. *)
Record StatusAttrs : Type := mkAttrs {
  cache : pyatom;
  db : pyatom;
  settings : pyatom
}.

(** A probe set: a class with the three probe methods. A probe may update
    the attributes of [self], returns a value, or raises. *)
Definition probe : Type := StatusAttrs → result (pyatom * StatusAttrs).

Record StatusClass : Type := mkStatusClass {
  class_attrs : StatusAttrs;            (* attributes of a fresh instance *)
  test_cache : probe;
  test_db : probe;
  test_settings : probe
}.

(** What becomes of a message handed to Django's mail machinery. *)
Inductive delivery : Type :=
| Delivered
(* the transport fails: the kind of error [fail_silently] is about *)
| DeliveryError (e : exn)
(* an error while the message is built, such as a header that holds a
   line break; [fail_silently] does not cover it *)
| MessageError (e : exn).

(** django.core.mail.BadHeaderError *)
Definition BadHeaderError : exn_class := Subclass "BadHeaderError" Exception.

(** Django settings and the collaborators the module calls. *)
Record Env : Type := mkEnv {
  DEBUG : bool;
  INTERNAL_IPS : list string;
  SERVICES_STATUS_MODULE : option string;
  (* django.views.debug *)
  get_safe_settings : gmap string pyval;
  cleanse_setting : string → pyval → pyval;
  (* tastypie: Resource.serialize(request, data, 'application/json') *)
  serialize : pyval → string;
  (* the formatted traceback of the exception being handled *)
  format_exception : exn → string;
  (* the configured mail backend, given subject and message *)
  mail_backend : string → string → delivery;
  (* import_module(name).StatusObject *)
  import_module : string → result StatusClass
}.

(** django.core.mail.mail_admins, by what its caller sees: a failure of
    the transport is raised unless [fail_silently] is set; an error raised
    while the message is built reaches the caller in either case. *)
Definition mail_admins (env : Env) (subject message : string)
    (fail_silently : bool) : M unit :=
  emit (MailAdmins subject message fail_silently) ;;
  match mail_backend env subject message with
  | Delivered => mret tt
  | DeliveryError e => if fail_silently then mret tt else raise e
  | MessageError e => raise e
  end.

(** [d[k]] on a dict with string keys. *)
Definition getitem {V} (d : gmap string V) (k : string) : M V :=
  match d !! k with
  | Some v => mret v
  | None => raise (mkExn KeyError (py_repr k) None None None)
  end.

(** [d.keys()]: the keys, in the dict's own order. *)
Definition keys {V} (d : gmap string V) : list string := (map_to_list d).*1.

(** [sorted(xs)] on byte strings: ascending in the lexicographic order of
    the bytes. *)
Definition sorted (xs : list string) : list string := merge_sort String.le xs.

(** [[f(x) for x in xs]]: left to right, the first exception ends it. *)
Fixpoint comprehension {A B} (f : A → M B) (xs : list A) : M (list B) :=
  match xs with
  | [] => mret []
  | x :: rest => y ← f x; ys ← comprehension f rest; mret (y :: ys)
  end.

(** [obj.method()] where the method is a probe acting on [self]. *)
Definition invoke (method : string) (body : probe) (self : StatusAttrs)
  : M (pyatom * StatusAttrs) :=
  emit (Invoke method) ;; lift (body self).

(** ** ServiceResource *)

Module ServiceResource.
Section WithEnv.
Context (env : Env).

Definition _handle_500 (request : HttpRequest) (exception : exn)
  : M HttpResponse :=
  let the_trace := format_exception env exception in
  emit (LogError "django.request.tastypie"
          ("Internal Server Error: " +:+ path request) 500) ;;
  (* Only send email to admins if we're not in DEBUG mode. *)
  (if negb (DEBUG env || isinstance exception [NotFound; ObjectDoesNotExist])
   then
     let subject :=
       "Error (" +:+
       (if bool_decide (REMOTE_ADDR request ∈ Some <$> INTERNAL_IPS env)
        then "internal" else "EXTERNAL") +:+
       " IP): " +:+ path request in
     request_repr ← try_except (lift (request_repr request))
                      (λ _, mret "Request repr() unavailable");
     let message := the_trace +:+ nl +:+ nl +:+ request_repr in
     mail_admins env subject message true
   else mret tt) ;;
  let data := PyDict [
    ("error_message", PyAtom (PyStr (e_str exception)));
    ("error_code", default (PyAtom (PyStr (class_name (e_class exception))))
                           (e_id exception));
    ("error_data", default (PyDict []) (e_data exception))
  ] in
  let serialized := serialize env data in
  mret (HttpApplicationError serialized "application/json; charset=utf-8").

(** Modelled from the spec: the outer request boundary of the resource
    framework (tastypie's view wrapper), which is not part of this
    repository. Every exception of a resource method is caught once here:
    one that carries an immediate response ends the request with that
    response, any other one goes to [_handle_500]; a returned object is
    turned into data by the resource's fields ([dehydrate]) and answered
    with status 200. *)
Definition wrap_view {A} (dehydrate : A → pyval) (request : HttpRequest)
    (view : M A) : M HttpResponse :=
  try_except
    (obj ← view;
     mret (mkResponse 200 (serialize env (dehydrate obj))
             (Some "application/json")))
    (λ e, match e_response e with
          | Some response => mret response
          | None => _handle_500 request e
          end).

End WithEnv.
End ServiceResource.

(** ** ErrorResource *)

Module ErrorResource.

Definition obj_get_list (request : option HttpRequest)
    (kwargs : gmap string string) : M (list pyval) :=
  (* All this does is throw an error. *)
  raise (new_exn TestError "This is a test.").

End ErrorResource.

(** ** SettingsObject, SettingsResource *)

Record SettingsObject : Type := mkSettingsObject {
  pk : string;
  cleansed : pyval
}.

Module SettingsResource.
Section WithEnv.
Context (env : Env).

(** [SettingsObject(name)], the constructor. *)
Definition new_SettingsObject (name : string) : M SettingsObject :=
  emit (Invoke "SettingsObject") ;;
  let cleansed := get_safe_settings env in
  value ← getitem cleansed name;
  mret (mkSettingsObject name (cleanse_setting env name value)).

Definition obj_get (request : HttpRequest) (kwargs : gmap string string)
  : M SettingsObject :=
  pk ← getitem kwargs "pk";
  let cleansed := get_safe_settings env in
  if bool_decide (pk ∉ dom cleansed)
  then raise (mkExn ImmediateHttpResponse "" None None (Some HttpNotFound))
  else new_SettingsObject pk.

Definition obj_get_list (request : HttpRequest) (kwargs : gmap string string)
  : M (list SettingsObject) :=
  let keys := sorted (keys (get_safe_settings env)) in
  comprehension new_SettingsObject keys.

End WithEnv.
End SettingsResource.

(** ** StatusObject *)

Module StatusObject.

(** The [checks] property. *)
Definition checks (self : StatusAttrs) : list (string * pyatom) :=
  [("cache", cache self); ("db", db self); ("settings", settings self)].

Definition __repr__ (self : StatusAttrs) : string :=
  let values := map (λ c, fst c +:+ ": " +:+ py_str (snd c)) (checks self) in
  "<Status: " +:+ join ", " values +:+ ">".

(** The class defines no [__str__]: [str(obj)] is [repr(obj)]. *)
Definition __str__ (self : StatusAttrs) : string := __repr__ self.

Definition not_implemented : probe :=
  λ _, Raise (new_exn NotImplementedError "").

(** The class as the module defines it: the probes are unimplemented. *)
Definition base : StatusClass := {|
  class_attrs := mkAttrs (PyBool false) (PyBool false) (PyBool true);
  test_cache := not_implemented;
  test_db := not_implemented;
  test_settings := not_implemented
|}.

Definition test (cls : StatusClass) (self : StatusAttrs)
  : M (bool * StatusAttrs) :=
  r1 ← invoke "test_cache" (test_cache cls) self;
  r2 ← invoke "test_db" (test_db cls) (snd r1);
  r3 ← invoke "test_settings" (test_settings cls) (snd r2);
  let self := snd r3 in
  mret (all (map snd (checks self)), self).

End StatusObject.

(** ** StatusResource *)

Module StatusResource.
Section WithEnv.
Context (env : Env).

Definition obj_get (request : option HttpRequest)
    (kwargs : gmap string string) : M StatusAttrs :=
  emit (Print (default "services.services" (SERVICES_STATUS_MODULE env))) ;;
  let client := default "services.services" (SERVICES_STATUS_MODULE env) in
  cls ← lift (import_module env client);
  let obj := class_attrs cls in
  r ← StatusObject.test cls obj;
  let obj := snd r in
  if negb (fst r)
  then raise (new_exn StatusError (StatusObject.__str__ obj))
  else mret obj.

Definition obj_get_list (request : option HttpRequest)
    (kwargs : gmap string string) : M (list StatusAttrs) :=
  obj ← obj_get request kwargs;
  mret [obj].

End WithEnv.
End StatusResource.

(** ** Vocabulary of the properties *)

(** The payload [_handle_500] serializes. *)
Definition error_payload (exception : exn) : pyval :=
  PyDict [
    ("error_message", PyAtom (PyStr (e_str exception)));
    ("error_code",
       match e_id exception with
       | Some id => id
       | None => PyAtom (PyStr (class_name (e_class exception)))
       end);
    ("error_data",
       match e_data exception with
       | Some data => data
       | None => PyDict []
       end)
  ].

(** Whether the exception is of a Not-Found kind. *)
Definition not_found_kind (exception : exn) : bool :=
  isinstance exception [NotFound; ObjectDoesNotExist].

(** Whether a trace holds a notification of the administrators. *)
Definition is_mail (ev : event) : bool :=
  match ev with
  | MailAdmins _ _ _ => true
  | _ => false
  end.

Definition mail_sent (tr : list event) : bool := existsb is_mail tr.

(** The text of the request used in the notification. *)
Definition repr_or_fallback (request : HttpRequest) : string :=
  match request_repr request with
  | Ok s => s
  | Raise _ => "Request repr() unavailable"
  end.

Definition mail_subject (env : Env) (request : HttpRequest) : string :=
  "Error (" +:+
  (if bool_decide (REMOTE_ADDR request ∈ Some <$> INTERNAL_IPS env)
   then "internal" else "EXTERNAL") +:+
  " IP): " +:+ path request.

(** Replacing what [repr(request)] does, and the mail transport. *)
Definition with_repr (r : result string) (request : HttpRequest)
  : HttpRequest :=
  {| path := path request;
     REMOTE_ADDR := REMOTE_ADDR request;
     request_repr := r |}.

Definition with_mail_backend (backend : string → string → delivery)
    (env : Env) : Env :=
  {| DEBUG := DEBUG env;
     INTERNAL_IPS := INTERNAL_IPS env;
     SERVICES_STATUS_MODULE := SERVICES_STATUS_MODULE env;
     get_safe_settings := get_safe_settings env;
     cleanse_setting := cleanse_setting env;
     serialize := serialize env;
     format_exception := format_exception env;
     mail_backend := backend;
     import_module := import_module env |}.

(** [s1 < s2] on byte strings. *)
Definition str_lt (s1 s2 : string) : Prop := String.compare s1 s2 = Lt.

(** The attributes of a status object after the three probes ran one
    after the other, or the exception of the first probe that raised. *)
Definition after_probes (cls : StatusClass) (self : StatusAttrs)
  : result StatusAttrs :=
  match test_cache cls self with
  | Raise e => Raise e
  | Ok (_, self1) =>
      match test_db cls self1 with
      | Raise e => Raise e
      | Ok (_, self2) =>
          match test_settings cls self2 with
          | Raise e => Raise e
          | Ok (_, self3) => Ok self3
          end
      end
  end.

(** The calls [test] makes when no probe raises before the third. *)
Definition three_calls : list event :=
  [Invoke "test_cache"; Invoke "test_db"; Invoke "test_settings"].

(** The same probe, with its return value changed by [f]. *)
Definition returning (f : pyatom → pyatom) (p : probe) : probe :=
  λ self,
    match p self with
    | Ok (r, self') => Ok (f r, self')
    | Raise e => Raise e
    end.

Definition with_returns (f1 f2 f3 : pyatom → pyatom) (cls : StatusClass)
  : StatusClass :=
  {| class_attrs := class_attrs cls;
     test_cache := returning f1 (test_cache cls);
     test_db := returning f2 (test_db cls);
     test_settings := returning f3 (test_settings cls) |}.


(** ** Concrete probe sets and configurations *)

(** A subclass whose probes set [cache] and [db] as given and leave
    [settings] alone; [test_cache] returns False, the others None. *)
Definition reporting (c d : bool) : StatusClass :=
  {| class_attrs := class_attrs StatusObject.base;
     test_cache := λ self,
       Ok (PyBool false, mkAttrs (PyBool c) (db self) (settings self));
     test_db := λ self,
       Ok (PyNone, mkAttrs (cache self) (PyBool d) (settings self));
     test_settings := λ self, Ok (PyNone, self) |}.

(** A subclass that implements [test_cache] only. *)
Definition cache_only : StatusClass :=
  {| class_attrs := class_attrs StatusObject.base;
     test_cache := λ self,
       Ok (PyNone, mkAttrs (PyBool true) (db self) (settings self));
     test_db := StatusObject.not_implemented;
     test_settings := StatusObject.not_implemented |}.

(** A configuration out of debug mode whose status module is [cls] and
    whose mail transport is down. *)
Definition deployment (snapshot : gmap string pyval) (cls : StatusClass)
  : Env :=
  {| DEBUG := false;
     INTERNAL_IPS := ["127.0.0.1"];
     SERVICES_STATUS_MODULE := Some "project.status";
     get_safe_settings := snapshot;
     cleanse_setting := λ _ v, v;
     serialize := λ _, "";
     format_exception := e_str;
     mail_backend := λ _ _,
       DeliveryError (new_exn Exception "connection refused");
     import_module := λ name,
       if String.eqb name "project.status" then Ok cls
       else Raise (new_exn ImportError ("No module named " +:+ name)) |}.

Definition a_request : HttpRequest :=
  {| path := "/services/status/";
     REMOTE_ADDR := Some "10.0.0.7";
     request_repr := Raise (new_exn Exception "") |}.

(** C5 as the specification words it: when a probe raises a
    not-implemented error, a Status error is raised that carries the
    representation of the three results. *)
Definition not_implemented_gives_status_error (env : Env)
    (cls : StatusClass) : Prop :=
  (∃ e, after_probes cls (class_attrs cls) = Raise e ∧
        e_class e = NotImplementedError) →
  ∃ self, outcome (StatusResource.obj_get env None ∅) =
            Raise (new_exn StatusError (StatusObject.__repr__ self)).

Definition a_snapshot : gmap string pyval :=
  {[ "TIME_ZONE" := PyAtom (PyStr "UTC");
     "SECRET_KEY" := PyAtom (PyStr "********************") ]}.

Definition detail_kwargs (key : string) : gmap string string :=
  {[ "pk" := key ]}.

Definition settings_env : Env := deployment a_snapshot StatusObject.base.
Definition healthy_env : Env := deployment ∅ (reporting true true).
Definition failing_env : Env := deployment ∅ (reporting true false).
Definition unfinished_env : Env := deployment ∅ cache_only.
Definition default_env : Env := deployment ∅ StatusObject.base.

(** ** Further parts of the module *)

(** [SettingsResource.get_resource_uri(bundle)], given the object of the
    bundle; [reverse] is Django's URL reversing. *)
Definition get_resource_uri
    (reverse : string → gmap string string → result string)
    (bundle_obj : SettingsObject) : M string :=
  lift (reverse "api_dispatch_detail"
          {[ "api_name" := "services";
             "resource_name" := "settings";
             "pk" := pk bundle_obj ]}).

(** ** Further vocabulary *)

(** A probe that is left as the module defines it. *)
Definition unimplemented (p : probe) : Prop :=
  ∀ self, p self = Raise (new_exn NotImplementedError "").

(** The class of the libraries or of this module a class descends from. *)
Fixpoint library_class (c : exn_class) : exn_class :=
  match c with
  | Subclass _ base => library_class base
  | _ => c
  end.

(** Whether the request comes from an address listed in INTERNAL_IPS. *)
Definition is_internal (env : Env) (request : HttpRequest) : bool :=
  match REMOTE_ADDR request with
  | Some addr => bool_decide (addr ∈ INTERNAL_IPS env)
  | None => false
  end.

Definition is_invoke (ev : event) : bool :=
  match ev with
  | Invoke _ => true
  | _ => false
  end.

(** A URL reversing that answers with the key itself. *)
Definition reverse_to_key (name : string) (kwargs : gmap string string)
  : result string :=
  match kwargs !! "pk" with
  | Some key => Ok key
  | None => Raise (new_exn KeyError "pk")
  end.

(** A request from an internal address whose [repr] works. *)
Definition an_internal_request : HttpRequest :=
  {| path := "/services/error/";
     REMOTE_ADDR := Some "127.0.0.1";
     request_repr := Ok "<WSGIRequest>" |}.

(** ** Errors of the notification *)

(** The error that reaches [_handle_500] from the notification of an
    exception: there is one when the notification is due and the mail
    backend raises while the message is built. *)
Definition notification_error (env : Env) (request : HttpRequest)
    (exception : exn) : option exn :=
  if DEBUG env || not_found_kind exception then None
  else
    match mail_backend env (mail_subject env request)
            (format_exception env exception +:+ nl +:+ nl +:+
             repr_or_fallback request) with
    | MessageError e => Some e
    | _ => None
    end.

(** A mail backend that builds every message, as Django's SMTP and
    in-memory backends do: a subject or message header with a line break
    is refused with [BadHeaderError]; delivery works. *)
Definition header_checking_backend (subject message : string) : delivery :=
  if has_newline subject
  then MessageError
         (new_exn BadHeaderError "Header values can't contain newlines")
  else Delivered.

(** A configuration out of debug mode with that backend. *)
Definition production (cls : StatusClass) : Env :=
  with_mail_backend header_checking_backend (deployment ∅ cls).

(** Requests whose path ends in a line break, as the URL
    [/services/error/%0A] gives. *)
Definition a_multiline_request : HttpRequest :=
  {| path := "/services/error/" +:+ nl;
     REMOTE_ADDR := Some "10.0.0.7";
     request_repr := Ok "<WSGIRequest>" |}.


(** * Properties *)

Import ServiceResource.

(** ** The monad *)

Lemma bind_Ok {A B} (tr : list event) (a : A) (f : A → M B) :
  ((tr, Ok a) ≫= f) = (tr ++ trace (f a), outcome (f a)).
Proof. unfold mbind, M_bind, trace, outcome. by destruct (f a). Qed.

Lemma bind_Raise {A B} (tr : list event) (e : exn) (f : A → M B) :
  ((tr, Raise e) ≫= f) = (tr, Raise e).
Proof. reflexivity. Qed.

Lemma outcome_bind {A B} (m : M A) (f : A → M B) :
  outcome (m ≫= f) =
  match outcome m with
  | Ok a => outcome (f a)
  | Raise e => Raise e
  end.
Proof.
  destruct m as [tr [a|e]]; [|done].
  by rewrite bind_Ok.
Qed.

Lemma trace_bind {A B} (m : M A) (f : A → M B) :
  trace (m ≫= f) =
  match outcome m with
  | Ok a => trace m ++ trace (f a)
  | Raise e => trace m
  end.
Proof.
  destruct m as [tr [a|e]]; [|done].
  by rewrite bind_Ok.
Qed.

(** What the caller of [mail_admins] sees: with [fail_silently] a failing
    transport is not seen, without it the failure is raised; an error
    raised while the message is built is seen in either case. *)
Lemma mail_admins_unfold env subject message :
  mail_admins env subject message true =
  ([MailAdmins subject message true],
   match mail_backend env subject message with
   | MessageError e => Raise e
   | _ => Ok tt
   end).
Proof.
  unfold mail_admins.
  by destruct (mail_backend env subject message).
Qed.

Lemma mail_admins_loud env subject message e :
  mail_backend env subject message = DeliveryError e →
  outcome (mail_admins env subject message false) = Raise e.
Proof. unfold mail_admins. by intros ->. Qed.

(** ** The definitions at work *)

Example sorted_keys :
  sorted ["TIME_ZONE"; "DEBUG"; "ADMINS"; "SECRET_KEY"; "DATABASES"] =
  ["ADMINS"; "DATABASES"; "DEBUG"; "SECRET_KEY"; "TIME_ZONE"].
Proof. vm_compute. reflexivity. Qed.

Example sorted_is_bytewise : sorted ["a"; "B"; "_x"; "A1"; "A"] =
  ["A"; "A1"; "B"; "_x"; "a"].
Proof. vm_compute. reflexivity. Qed.

Example repr_of_fresh_object :
  StatusObject.__repr__ (class_attrs StatusObject.base) =
  "<Status: cache: False, db: False, settings: True>".
Proof. reflexivity. Qed.

Example base_class_raises :
  StatusObject.test StatusObject.base (class_attrs StatusObject.base) =
  ([Invoke "test_cache"], Raise (new_exn NotImplementedError "")).
Proof. reflexivity. Qed.

Example subclass_is_instance :
  isinstance (new_exn (Subclass "DoesNotExist" ObjectDoesNotExist) "gone")
    [NotFound; ObjectDoesNotExist] = true ∧
  isinstance (new_exn (Subclass "NotFound" Exception) "gone")
    [NotFound; ObjectDoesNotExist] = false.
Proof. split; reflexivity. Qed.

Example settings_listing :
  outcome (SettingsResource.obj_get_list settings_env a_request ∅) =
  Ok [ {| pk := "SECRET_KEY";
          cleansed := PyAtom (PyStr "********************") |};
       {| pk := "TIME_ZONE"; cleansed := PyAtom (PyStr "UTC") |} ].
Proof. vm_compute. reflexivity. Qed.

Example repr_of_keys :
  py_repr "pk" = "'pk'" ∧
  py_repr "it's" = String (ascii_of_nat 34) ("it's" +:+
                     String (ascii_of_nat 34) "") ∧
  py_repr ("a" +:+ nl +:+ "\" +:+ String (ascii_of_nat 200) "") =
    "'a\n\\\xc8'".
Proof. repeat split; vm_compute; reflexivity. Qed.

Example bad_header_is_not_silenced :
  mail_admins (production StatusObject.base)
    ("Error (EXTERNAL IP): /x" +:+ nl) "text" true =
  ([MailAdmins ("Error (EXTERNAL IP): /x" +:+ nl) "text" true],
   Raise (new_exn BadHeaderError "Header values can't contain newlines")).
Proof. vm_compute. reflexivity. Qed.

Example failing_transport_is_silent :
  _handle_500 default_env a_request (new_exn TestError "This is a test.") =
  ([LogError "django.request.tastypie"
      "Internal Server Error: /services/status/" 500;
    MailAdmins "Error (EXTERNAL IP): /services/status/"
      ("This is a test." +:+ nl +:+ nl +:+ "Request repr() unavailable")
      true],
   Ok (HttpApplicationError "" "application/json; charset=utf-8")).
Proof. vm_compute. reflexivity. Qed.

(** ** The error formatter *)

(** What [_handle_500] does, step by step. *)
Lemma handle_500_unfold env request exception :
  _handle_500 env request exception =
  (LogError "django.request.tastypie"
     ("Internal Server Error: " +:+ path request) 500 ::
   (if DEBUG env || not_found_kind exception then []
    else [MailAdmins (mail_subject env request)
            (format_exception env exception +:+ nl +:+ nl +:+
             repr_or_fallback request) true]),
   match notification_error env request exception with
   | Some e => Raise e
   | None =>
       Ok (HttpApplicationError (serialize env (error_payload exception))
             "application/json; charset=utf-8")
   end).
Proof.
  unfold _handle_500, notification_error, not_found_kind, repr_or_fallback,
    error_payload.
  destruct (DEBUG env || isinstance exception _); simpl.
  - by destruct (e_id exception), (e_data exception).
  - fold (mail_subject env request).
    destruct (request_repr request) as [s|e']; simpl;
      rewrite mail_admins_unfold; simpl;
      destruct (mail_backend env _ _); simpl;
      by destruct (e_id exception), (e_data exception).
Qed.

Lemma handle_500_trace env request exception :
  trace (_handle_500 env request exception) =
  LogError "django.request.tastypie"
    ("Internal Server Error: " +:+ path request) 500 ::
  (if DEBUG env || not_found_kind exception then []
   else [MailAdmins (mail_subject env request)
           (format_exception env exception +:+ nl +:+ nl +:+
            repr_or_fallback request) true]).
Proof. by rewrite handle_500_unfold. Qed.

Lemma handle_500_outcome env request exception :
  notification_error env request exception = None →
  outcome (_handle_500 env request exception) =
  Ok (HttpApplicationError (serialize env (error_payload exception))
        "application/json; charset=utf-8").
Proof. intros Hmail. by rewrite handle_500_unfold, Hmail. Qed.

Lemma handle_500_raises env request exception e :
  notification_error env request exception = Some e →
  outcome (_handle_500 env request exception) = Raise e.
Proof. intros Hmail. by rewrite handle_500_unfold, Hmail. Qed.



(** C7: the notification of the administrators is sent if and only if
    debug mode is off and the exception is not of a Not-Found kind; in
    particular never in debug mode and never for a Not-Found kind. *)
Theorem mail_iff_not_debug_and_not_notfound env request exception :
  (mail_sent (trace (_handle_500 env request exception)) = true ↔
     DEBUG env = false ∧ not_found_kind exception = false) ∧
  (DEBUG env = true ∨ not_found_kind exception = true ↔
     List.filter is_mail
       (trace (_handle_500 env request exception)) = []).
Proof.
  rewrite handle_500_trace. unfold mail_sent. simpl.
  destruct (DEBUG env), (not_found_kind exception); simpl;
    intuition congruence.
Qed.

(** C8 at a request whose path holds a line break, out of debug mode and
    with a mail backend that builds the message: [mail_admins] is called
    with [fail_silently] set, raises [BadHeaderError] all the same, and the
    error leaves [_handle_500]: no 500 response is returned. *)
Theorem bad_header_leaves_handle_500 :
  _handle_500 (production StatusObject.base) a_multiline_request
    (new_exn TestError "This is a test.") =
  ([LogError "django.request.tastypie"
      ("Internal Server Error: /services/error/" +:+ nl) 500;
    MailAdmins ("Error (EXTERNAL IP): /services/error/" +:+ nl)
      ("This is a test." +:+ nl +:+ nl +:+ "<WSGIRequest>") true],
   Raise (new_exn BadHeaderError "Header values can't contain newlines")).
Proof. vm_compute. reflexivity. Qed.

(** ** The request boundary *)

Lemma wrap_view_Ok {A} env (dehydrate : A → pyval) request tr obj :
  wrap_view env dehydrate request (tr, Ok obj) =
  (tr, Ok (mkResponse 200 (serialize env (dehydrate obj))
             (Some "application/json"))).
Proof.
  unfold wrap_view. rewrite bind_Ok. simpl. by rewrite app_nil_r.
Qed.

Lemma wrap_view_immediate {A} env (dehydrate : A → pyval) request tr e r :
  e_response e = Some r →
  wrap_view env dehydrate request (tr, Raise e) = (tr, Ok r).
Proof.
  intros He. unfold wrap_view. rewrite bind_Raise. simpl.
  rewrite He. simpl. by rewrite app_nil_r.
Qed.

Lemma wrap_view_500 {A} env (dehydrate : A → pyval) request tr e :
  e_response e = None →
  wrap_view env dehydrate request (tr, Raise e) =
  (tr ++ trace (_handle_500 env request e),
   outcome (_handle_500 env request e)).
Proof.
  intros He. unfold wrap_view. rewrite bind_Raise. simpl.
  rewrite He. by destruct (_handle_500 env request e).
Qed.

(** ** The error resource *)



(** ** The settings resource *)

Lemma getitem_Some {V} (d : gmap string V) k v :
  d !! k = Some v → getitem d k = ([], Ok v).
Proof. unfold getitem. by intros ->. Qed.

Lemma new_SettingsObject_present env name v :
  get_safe_settings env !! name = Some v →
  SettingsResource.new_SettingsObject env name =
  ([Invoke "SettingsObject"],
   Ok (mkSettingsObject name (cleanse_setting env name v))).
Proof.
  intros Hv. unfold SettingsResource.new_SettingsObject.
  by rewrite (getitem_Some _ _ _ Hv).
Qed.

(** C2: for a key present in the safe settings snapshot,
    [SettingsResource.obj_get] returns the settings object of that key
    with the redacted value, answered with status 200; for an absent key
    it raises the immediate 404 response, before any settings object is
    constructed, and the request ends with that response without a call
    of the error formatter (the trace holds no event at all). *)
Theorem settings_obj_get_spec env (dehydrate : SettingsObject → pyval)
    request (kwargs : gmap string string) (K : string) :
  kwargs !! "pk" = Some K →
  match get_safe_settings env !! K with
  | Some v =>
      let obj := {| pk := K; cleansed := cleanse_setting env K v |} in
      SettingsResource.obj_get env request kwargs =
        ([Invoke "SettingsObject"], Ok obj) ∧
      outcome (wrap_view env dehydrate request
                 (SettingsResource.obj_get env request kwargs)) =
        Ok (mkResponse 200 (serialize env (dehydrate obj))
              (Some "application/json"))
  | None =>
      SettingsResource.obj_get env request kwargs =
        ([], Raise (mkExn ImmediateHttpResponse "" None None
                      (Some HttpNotFound))) ∧
      wrap_view env dehydrate request
        (SettingsResource.obj_get env request kwargs) =
        ([], Ok HttpNotFound) ∧
      status_code HttpNotFound = 404
  end.
Proof.
  intros Hpk.
  destruct (get_safe_settings env !! K) as [v|] eqn:HK.
  - assert (SettingsResource.obj_get env request kwargs =
            ([Invoke "SettingsObject"],
             Ok {| pk := K; cleansed := cleanse_setting env K v |})) as ->.
    { unfold SettingsResource.obj_get.
      rewrite (getitem_Some _ _ _ Hpk), bind_Ok. simpl.
      rewrite bool_decide_eq_false_2.
      - by rewrite (new_SettingsObject_present _ _ _ HK).
      - rewrite not_elem_of_dom, HK. naive_solver. }
    by rewrite wrap_view_Ok.
  - assert (SettingsResource.obj_get env request kwargs =
            ([], Raise (mkExn ImmediateHttpResponse "" None None
                          (Some HttpNotFound)))) as ->.
    { unfold SettingsResource.obj_get.
      rewrite (getitem_Some _ _ _ Hpk), bind_Ok. simpl.
      by rewrite bool_decide_eq_true_2 by by rewrite not_elem_of_dom. }
    by rewrite (wrap_view_immediate _ _ _ _ _ HttpNotFound).
Qed.

(** *** Sorting the keys *)

Lemma le_ne_str_lt (s1 s2 : string) :
  String.le s1 s2 → s1 ≠ s2 → str_lt s1 s2.
Proof.
  unfold String.le, String.leb, str_lt. intros Hle Hne.
  destruct (String.compare s1 s2) eqn:Hc; [|done|done].
  by apply String.compare_eq_iff in Hc.
Qed.

Lemma StronglySorted_strict (l : list string) :
  StronglySorted String.le l → NoDup l → StronglySorted str_lt l.
Proof.
  induction 1 as [|x l Hl IH Hx]; intros Hnd; [constructor|].
  apply NoDup_cons in Hnd as [Hxl Hnd].
  constructor; [by apply IH|].
  rewrite Forall_forall in Hx |- *. intros y Hy.
  apply le_ne_str_lt; [by apply Hx|]. by intros ->.
Qed.

Lemma NoDup_keys {V} (d : gmap string V) : NoDup (keys d).
Proof. apply NoDup_fst_map_to_list. Qed.

Lemma elem_of_keys {V} (d : gmap string V) k : k ∈ keys d ↔ is_Some (d !! k).
Proof.
  unfold keys. rewrite list_elem_of_fmap. split.
  - intros [[k' v] [-> Hin]]. apply elem_of_map_to_list in Hin. by eexists.
  - intros [v Hv]. exists (k, v). by rewrite elem_of_map_to_list.
Qed.

Lemma sorted_Permutation (xs : list string) : sorted xs ≡ₚ xs.
Proof. apply merge_sort_Permutation. Qed.

(** Any ascending rearrangement of [xs] is [sorted xs]: the result does
    not depend on the sorting algorithm. *)
Lemma sorted_unique (xs ys : list string) :
  ys ≡ₚ xs → StronglySorted String.le ys → ys = sorted xs.
Proof.
  intros Hperm Hys.
  apply (StronglySorted_unique String.le); [done| |].
  - apply (StronglySorted_merge_sort String.le).
  - by rewrite sorted_Permutation.
Qed.

Lemma sorted_ascending (xs : list string) :
  NoDup xs → StronglySorted str_lt (sorted xs).
Proof.
  intros Hnd. apply StronglySorted_strict.
  - apply (StronglySorted_merge_sort String.le).
  - by rewrite sorted_Permutation.
Qed.

(** *** The list comprehension over the keys *)

Lemma comprehension_settings env (ks : list string) :
  Forall (λ k, is_Some (get_safe_settings env !! k)) ks →
  ∃ objs,
    comprehension (SettingsResource.new_SettingsObject env) ks =
      (map (λ _, Invoke "SettingsObject") ks, Ok objs) ∧
    map pk objs = ks ∧
    Forall (λ obj, ∃ v, get_safe_settings env !! pk obj = Some v ∧
                        cleansed obj = cleanse_setting env (pk obj) v) objs.
Proof.
  induction 1 as [|k ks [v Hv] _ (objs & Hrun & Hpk & Hval)].
  - by exists [].
  - exists (mkSettingsObject k (cleanse_setting env k v) :: objs).
    split_and!.
    + simpl. rewrite (new_SettingsObject_present _ _ _ Hv), bind_Ok.
      rewrite Hrun, bind_Ok. simpl. by rewrite app_nil_r.
    + simpl. by rewrite Hpk.
    + constructor; [by exists v|done].
Qed.

(** C3: [SettingsResource.obj_get_list] returns, for every safe settings
    snapshot, one entry per key of the snapshot: no key twice, a key is
    listed exactly when the snapshot has it, and the keys are in strictly
    ascending lexicographic order; each entry holds the redacted value of
    its key. *)
Theorem settings_list_sorted env request kwargs :
  ∃ objs,
    outcome (SettingsResource.obj_get_list env request kwargs) = Ok objs ∧
    length objs = size (get_safe_settings env) ∧
    NoDup (map pk objs) ∧
    (∀ k, k ∈ map pk objs ↔ is_Some (get_safe_settings env !! k)) ∧
    StronglySorted str_lt (map pk objs) ∧
    Forall (λ obj, ∃ v, get_safe_settings env !! pk obj = Some v ∧
                        cleansed obj = cleanse_setting env (pk obj) v) objs.
Proof.
  unfold SettingsResource.obj_get_list.
  destruct (comprehension_settings env
              (sorted (keys (get_safe_settings env))))
    as (objs & Hrun & Hpk & Hval).
  { rewrite Forall_forall. intros k.
    rewrite sorted_Permutation. apply elem_of_keys. }
  exists objs. rewrite Hrun, Hpk. split_and!; try done.
  - rewrite <-(length_map pk), Hpk, sorted_Permutation.
    unfold keys. by rewrite length_fmap, length_map_to_list.
  - rewrite sorted_Permutation. apply NoDup_keys.
  - intros k. rewrite sorted_Permutation. apply elem_of_keys.
  - apply sorted_ascending, NoDup_keys.
Qed.

(** ** The status checker *)

(** What [test] does, case by case. *)
Lemma test_unfold cls self :
  StatusObject.test cls self =
  match test_cache cls self with
  | Raise e => ([Invoke "test_cache"], Raise e)
  | Ok (_, self1) =>
      match test_db cls self1 with
      | Raise e => ([Invoke "test_cache"; Invoke "test_db"], Raise e)
      | Ok (_, self2) =>
          match test_settings cls self2 with
          | Raise e => (three_calls, Raise e)
          | Ok (_, self3) =>
              (three_calls,
               Ok (truthy (cache self3) && truthy (db self3) &&
                   truthy (settings self3), self3))
          end
      end
  end.
Proof.
  unfold StatusObject.test, invoke, lift, emit.
  destruct (test_cache cls self) as [[r1 self1]|e]; [|done]. simpl.
  destruct (test_db cls self1) as [[r2 self2]|e]; [|done]. simpl.
  destruct (test_settings cls self2) as [[r3 self3]|e]; [|done]. simpl.
  unfold three_calls, all. simpl. by rewrite andb_true_r, andb_assoc.
Qed.

Lemma test_outcome cls self :
  outcome (StatusObject.test cls self) =
  match after_probes cls self with
  | Ok self' =>
      Ok (truthy (cache self') && truthy (db self') &&
          truthy (settings self'), self')
  | Raise e => Raise e
  end.
Proof.
  rewrite test_unfold. unfold after_probes.
  destruct (test_cache cls self) as [[r1 self1]|e]; [|done].
  destruct (test_db cls self1) as [[r2 self2]|e]; [|done].
  by destruct (test_settings cls self2) as [[r3 self3]|e].
Qed.

Lemma test_with_returns f1 f2 f3 cls self :
  StatusObject.test (with_returns f1 f2 f3 cls) self =
  StatusObject.test cls self.
Proof.
  rewrite !test_unfold. unfold with_returns, returning. simpl.
  destruct (test_cache cls self) as [[r1 self1]|e]; [|done].
  destruct (test_db cls self1) as [[r2 self2]|e]; [|done].
  by destruct (test_settings cls self2) as [[r3 self3]|e].
Qed.

(** C10: [StatusObject.test] invokes [test_cache], [test_db] and
    [test_settings] in that order, each on the object as the one before
    left it, and returns the conjunction of the [cache], [db] and
    [settings] attributes as they are after the third probe; what the
    probes return is ignored: changing the returned values changes nothing,
    and probes that return False or None while their attributes are true
    make the test pass. *)
Theorem test_is_conjunction_after_probes cls self :
  StatusObject.test cls self =
    match test_cache cls self with
    | Raise e => ([Invoke "test_cache"], Raise e)
    | Ok (_, self1) =>
        match test_db cls self1 with
        | Raise e => ([Invoke "test_cache"; Invoke "test_db"], Raise e)
        | Ok (_, self2) =>
            match test_settings cls self2 with
            | Raise e =>
                ([Invoke "test_cache"; Invoke "test_db";
                  Invoke "test_settings"], Raise e)
            | Ok (_, self3) =>
                ([Invoke "test_cache"; Invoke "test_db";
                  Invoke "test_settings"],
                 Ok (truthy (cache self3) && truthy (db self3) &&
                     truthy (settings self3), self3))
            end
        end
    end ∧
  (∀ f1 f2 f3 : pyatom → pyatom,
     StatusObject.test (with_returns f1 f2 f3 cls) self =
     StatusObject.test cls self) ∧
  test_cache (reporting true true) self =
    Ok (PyBool false, mkAttrs (PyBool true) (db self) (settings self)) ∧
  outcome (StatusObject.test (reporting true true)
             (class_attrs (reporting true true))) =
    Ok (true, mkAttrs (PyBool true) (PyBool true) (PyBool true)).
Proof.
  split_and!.
  - apply test_unfold.
  - intros. apply test_with_returns.
  - reflexivity.
  - reflexivity.
Qed.

(** ** The status resource *)

Lemma status_obj_get_outcome env request kwargs cls :
  import_module env
    (default "services.services" (SERVICES_STATUS_MODULE env)) = Ok cls →
  outcome (StatusResource.obj_get env request kwargs) =
  match after_probes cls (class_attrs cls) with
  | Ok self =>
      if truthy (cache self) && truthy (db self) && truthy (settings self)
      then Ok self
      else Raise (new_exn StatusError (StatusObject.__repr__ self))
  | Raise e => Raise e
  end.
Proof.
  intros Hcls. unfold StatusResource.obj_get.
  rewrite !outcome_bind. simpl. unfold lift. rewrite Hcls. simpl.
  rewrite outcome_bind, test_outcome.
  destruct (after_probes cls (class_attrs cls)) as [self|e]; [|done].
  simpl. by destruct (_ && _ && _).
Qed.

(** C9: the list endpoint of the status resource is the detail endpoint
    with its result wrapped: it returns the one-element list of the object
    [obj_get] returns, raises exactly the exception [obj_get] raises, and
    has the same effects. *)
Theorem status_list_wraps_detail env request kwargs :
  let detail := StatusResource.obj_get env request kwargs in
  let listing := StatusResource.obj_get_list env request kwargs in
  trace listing = trace detail ∧
  outcome listing =
    match outcome detail with
    | Ok obj => Ok [obj]
    | Raise e => Raise e
    end ∧
  (∀ obj, outcome detail = Ok obj ↔ outcome listing = Ok [obj]) ∧
  (∀ e, outcome detail = Raise e ↔ outcome listing = Raise e).
Proof.
  intros detail listing. unfold listing, StatusResource.obj_get_list.
  fold detail. rewrite trace_bind, outcome_bind.
  destruct detail as [tr [obj|e]]; unfold trace, outcome; simpl.
  - rewrite app_nil_r. split_and!; try done; intros; split; congruence.
  - split_and!; try done; intros; split; congruence.
Qed.




(** C5, amended: when a probe raises a not-implemented error, [test]
    does not return; the error itself leaves [test] and
    [StatusResource.obj_get], and, when no error is raised while the
    notification of the administrators is built, the request is answered
    with status 500 and [error_code] ["NotImplementedError"]. *)
Theorem not_implemented_propagates env (dehydrate : StatusAttrs → pyval)
    request kwargs cls (msg : string) :
  import_module env
    (default "services.services" (SERVICES_STATUS_MODULE env)) = Ok cls →
  after_probes cls (class_attrs cls) =
    Raise (new_exn NotImplementedError msg) →
  let detail := StatusResource.obj_get env (Some request) kwargs in
  outcome (StatusObject.test cls (class_attrs cls)) =
    Raise (new_exn NotImplementedError msg) ∧
  outcome detail = Raise (new_exn NotImplementedError msg) ∧
  (notification_error env request (new_exn NotImplementedError msg)
     = None →
   outcome (wrap_view env dehydrate request detail) =
     Ok {| status_code := 500;
           content := serialize env (PyDict [
             ("error_message", PyAtom (PyStr msg));
             ("error_code", PyAtom (PyStr "NotImplementedError"));
             ("error_data", PyDict [])]);
           content_type := Some "application/json; charset=utf-8" |}).
Proof.
  intros Hcls Hrun detail.
  pose proof (status_obj_get_outcome env (Some request) kwargs cls Hcls)
    as Hout.
  rewrite Hrun in Hout. fold detail in Hout.
  split_and!.
  - by rewrite test_outcome, Hrun.
  - done.
  - intros Hmail.
    destruct detail as [tr out]. unfold outcome in Hout. simpl in Hout.
    subst out. rewrite wrap_view_500 by done.
    unfold outcome at 1. simpl. by rewrite handle_500_outcome.
Qed.

(** C5 as worded fails on the class the module itself defines: its first
    probe raises the not-implemented error, and [obj_get] raises that
    error, not a Status error. *)
Lemma not_implemented_is_no_status_error :
  outcome (StatusResource.obj_get default_env None ∅) =
    Raise (new_exn NotImplementedError "") ∧
  ¬ not_implemented_gives_status_error default_env StatusObject.base.
Proof.
  split; [reflexivity|].
  intros Hclaim. destruct Hclaim as [self Hself].
  - by exists (new_exn NotImplementedError "").
  - vm_compute in Hself. discriminate Hself.
Qed.

(** ** The properties at concrete inputs *)

Lemma settings_obj_get_witness :
  (detail_kwargs "TIME_ZONE" !! "pk" = Some "TIME_ZONE" ∧
   outcome (SettingsResource.obj_get settings_env a_request
              (detail_kwargs "TIME_ZONE")) =
     Ok {| pk := "TIME_ZONE"; cleansed := PyAtom (PyStr "UTC") |}) ∧
  (detail_kwargs "ADMINS" !! "pk" = Some "ADMINS" ∧
   wrap_view settings_env (λ _, PyDict []) a_request
     (SettingsResource.obj_get settings_env a_request
        (detail_kwargs "ADMINS")) =
     ([], Ok HttpNotFound)).
Proof.
  split.
  - split; [reflexivity|].
    pose proof (settings_obj_get_spec settings_env (λ _, PyDict []) a_request
                  (detail_kwargs "TIME_ZONE") "TIME_ZONE" eq_refl) as H.
    change (get_safe_settings settings_env !! "TIME_ZONE")
      with (Some (PyAtom (PyStr "UTC"))) in H.
    destruct H as [H _]. rewrite H. reflexivity.
  - split; [reflexivity|].
    pose proof (settings_obj_get_spec settings_env (λ _, PyDict []) a_request
                  (detail_kwargs "ADMINS") "ADMINS" eq_refl) as H.
    change (get_safe_settings settings_env !! "ADMINS") with (@None pyval) in H.
    destruct H as (_ & H & _). exact H.
Defined.


Lemma not_implemented_propagates_witness :
  after_probes cache_only (class_attrs cache_only) =
    Raise (new_exn NotImplementedError "") ∧
  outcome (StatusResource.obj_get unfinished_env (Some a_request) ∅) =
    Raise (new_exn NotImplementedError "") ∧
  outcome (wrap_view unfinished_env (λ _, PyDict []) a_request
             (StatusResource.obj_get unfinished_env (Some a_request) ∅)) =
    Ok (HttpApplicationError "" "application/json; charset=utf-8").
Proof.
  split; [reflexivity|].
  pose proof (not_implemented_propagates unfinished_env (λ _, PyDict [])
                a_request ∅ cache_only "" eq_refl eq_refl) as H.
  simpl in H. destruct H as (_ & H1 & H2).
  split; [exact H1|exact (H2 eq_refl)].
Defined.



(** * Further properties of the module *)

(** ** The error formatter: log entry and notification *)

(** X1: [_handle_500] writes exactly one error log entry, on the logger
    [django.request.tastypie], with the request path and status 500; it is
    written for every exception and every configuration, before any
    notification, and at most one notification follows it. *)
Theorem handle_500_logs_once_first env request exception :
  ∃ mails,
    trace (_handle_500 env request exception) =
      LogError "django.request.tastypie"
        ("Internal Server Error: " +:+ path request) 500 :: mails ∧
    (length mails ≤ 1)%nat ∧
    forallb is_mail mails = true.
Proof.
  rewrite handle_500_trace.
  eexists. split; [reflexivity|].
  destruct (DEBUG env || not_found_kind exception); simpl; split; (lia || done).
Qed.

Lemma internal_addr_lookup env request :
  bool_decide (REMOTE_ADDR request ∈ Some <$> INTERNAL_IPS env) =
  is_internal env request.
Proof.
  unfold is_internal. destruct (REMOTE_ADDR request) as [addr|].
  - apply bool_decide_ext. apply (list_elem_of_fmap_inj Some _).
  - apply bool_decide_eq_false_2. rewrite list_elem_of_fmap.
    by intros (addr & ? & _).
Qed.

(** X2: when a notification is due and [repr(request)] works, its
    subject is [Error (internal IP): <path>] exactly for a request whose
    REMOTE_ADDR is listed in INTERNAL_IPS, and [Error (EXTERNAL IP): <path>]
    otherwise, in particular for a request without REMOTE_ADDR; its
    message is the traceback, an empty line and [repr(request)]. *)
Theorem notification_subject_and_message env request exception text :
  DEBUG env = false →
  not_found_kind exception = false →
  request_repr request = Ok text →
  List.filter is_mail (trace (_handle_500 env request exception)) =
    [MailAdmins
       (if is_internal env request
        then "Error (internal IP): " +:+ path request
        else "Error (EXTERNAL IP): " +:+ path request)
       (format_exception env exception +:+ nl +:+ nl +:+ text)
       true] ∧
  (REMOTE_ADDR request = None → is_internal env request = false).
Proof.
  intros Hdebug Hkind Hrepr. rewrite handle_500_trace.
  unfold mail_subject, repr_or_fallback. simpl.
  rewrite Hdebug, Hkind, Hrepr, internal_addr_lookup. simpl.
  split.
  - by destruct (is_internal env request).
  - unfold is_internal. by intros ->.
Qed.

Lemma issubclass_library_class (c d : exn_class) :
  d = NotFound ∨ d = ObjectDoesNotExist →
  issubclass c d = bool_decide (library_class c = d).
Proof.
  intros Hcases.
  induction c as [| | | | | | | | |name base IH]; simpl;
    try (destruct Hcases as [-> | ->]; reflexivity).
  rewrite IH. rewrite bool_decide_eq_false_2; [done|].
  destruct Hcases as [-> | ->]; discriminate.
Qed.

(** X3: an exception is of a Not-Found kind, and so never notified,
    exactly when its class descends from [NotFound] or
    [ObjectDoesNotExist] through any chain of subclasses; the names of the
    subclasses play no part. *)
Theorem not_found_kind_by_descent env request exception :
  let root := library_class (e_class exception) in
  not_found_kind exception =
    bool_decide (root = NotFound) ||
    bool_decide (root = ObjectDoesNotExist) ∧
  mail_sent (trace (_handle_500 env request exception)) =
    negb (DEBUG env) &&
    negb (bool_decide (root = NotFound) ||
          bool_decide (root = ObjectDoesNotExist)).
Proof.
  intros root.
  assert (not_found_kind exception =
          bool_decide (root = NotFound) ||
          bool_decide (root = ObjectDoesNotExist)) as Hkind.
  { unfold not_found_kind, isinstance. simpl.
    rewrite !issubclass_library_class by auto.
    by rewrite orb_false_r. }
  split; [done|].
  rewrite handle_500_trace, <-Hkind. unfold mail_sent. simpl.
  by destruct (DEBUG env), (not_found_kind exception).
Qed.

(** X4: every call of the error endpoint is logged, and notified to the
    administrators unless debug mode is on: [TestError] is not of a
    Not-Found kind. *)
Theorem error_endpoint_notifies_unless_debug env
    (dehydrate : list pyval → pyval) request kwargs :
  trace (wrap_view env dehydrate request
           (ErrorResource.obj_get_list (Some request) kwargs)) =
    LogError "django.request.tastypie"
      ("Internal Server Error: " +:+ path request) 500 ::
    (if DEBUG env then []
     else [MailAdmins (mail_subject env request)
             (format_exception env (new_exn TestError "This is a test.")
              +:+ nl +:+ nl +:+ repr_or_fallback request) true]).
Proof.
  unfold ErrorResource.obj_get_list, raise.
  rewrite wrap_view_500 by done. unfold trace at 1. simpl.
  rewrite handle_500_trace. by rewrite orb_false_r.
Qed.

(** ** The settings resource: errors and how list and detail agree *)

Lemma getitem_None {V} (d : gmap string V) k :
  d !! k = None →
  ∃ e, getitem d k = ([], Raise e) ∧ e_class e = KeyError.
Proof. unfold getitem. intros ->. by eexists. Qed.

Lemma settings_obj_get_unfold env request (kwargs : gmap string string) K :
  kwargs !! "pk" = Some K →
  SettingsResource.obj_get env request kwargs =
  match get_safe_settings env !! K with
  | Some v =>
      ([Invoke "SettingsObject"],
       Ok {| pk := K; cleansed := cleanse_setting env K v |})
  | None =>
      ([], Raise (mkExn ImmediateHttpResponse "" None None
                    (Some HttpNotFound)))
  end.
Proof.
  intros Hpk. unfold SettingsResource.obj_get.
  rewrite (getitem_Some _ _ _ Hpk), bind_Ok. simpl.
  destruct (get_safe_settings env !! K) as [v|] eqn:HK.
  - rewrite bool_decide_eq_false_2.
    + by rewrite (new_SettingsObject_present _ _ _ HK).
    + rewrite not_elem_of_dom, HK. naive_solver.
  - by rewrite bool_decide_eq_true_2 by by rewrite not_elem_of_dom.
Qed.

(** X5: the constructor [SettingsObject(name)] is unguarded: it returns
    an object, with [pk] the name and [cleansed] the redacted snapshot
    value, exactly for the names of the snapshot, and raises [KeyError]
    for any other name. *)
Theorem settings_object_constructor env name :
  (∀ obj,
     outcome (SettingsResource.new_SettingsObject env name) = Ok obj ↔
     ∃ v, get_safe_settings env !! name = Some v ∧
          obj = {| pk := name; cleansed := cleanse_setting env name v |}) ∧
  ((∃ e, outcome (SettingsResource.new_SettingsObject env name) = Raise e ∧
         e_class e = KeyError) ↔
   get_safe_settings env !! name = None).
Proof.
  unfold SettingsResource.new_SettingsObject.
  destruct (get_safe_settings env !! name) as [v|] eqn:Hname.
  - rewrite (getitem_Some _ _ _ Hname). unfold outcome. simpl. split.
    + intros obj. split.
      * intros [= <-]. by exists v.
      * intros (v' & [= <-] & ->). done.
    + split; [|done]. by intros (e & [=] & _).
  - destruct (getitem_None _ _ Hname) as (e & -> & He).
    unfold outcome. simpl. split.
    + intros obj. split; [done|]. by intros (v & [=] & _).
    + split; [done|]. intros _. by exists e.
Qed.

(** X6: [SettingsResource.obj_get] raises in two cases only: [KeyError]
    when the arguments hold no [pk], and the immediate 404 response when
    the key is not in the snapshot. The [KeyError] of the constructor never
    leaves [obj_get]. *)
Theorem settings_obj_get_raises_only env request
    (kwargs : gmap string string) :
  (kwargs !! "pk" = None →
   ∃ e, SettingsResource.obj_get env request kwargs = ([], Raise e) ∧
        e_class e = KeyError) ∧
  (∀ e, outcome (SettingsResource.obj_get env request kwargs) = Raise e →
     (kwargs !! "pk" = None ∧ e_class e = KeyError) ∨
     (∃ K, kwargs !! "pk" = Some K ∧
           get_safe_settings env !! K = None ∧
           e_class e = ImmediateHttpResponse ∧
           e_response e = Some HttpNotFound)).
Proof.
  split.
  - intros Hpk. unfold SettingsResource.obj_get.
    destruct (getitem_None _ _ Hpk) as (e & -> & He).
    exists e. by rewrite bind_Raise.
  - intros e. destruct (kwargs !! "pk") as [K|] eqn:Hpk.
    + rewrite (settings_obj_get_unfold _ _ _ _ Hpk).
      destruct (get_safe_settings env !! K) as [v|] eqn:HK;
        unfold outcome; simpl; [done|].
      intros [= <-]. right. by exists K.
    + unfold SettingsResource.obj_get.
      destruct (getitem_None _ _ Hpk) as (e' & -> & He).
      rewrite bind_Raise. unfold outcome. simpl.
      intros [= <-]. by left.
Qed.

Lemma settings_list_run env :
  ∃ objs,
    comprehension (SettingsResource.new_SettingsObject env)
      (sorted (keys (get_safe_settings env))) =
      (map (λ _, Invoke "SettingsObject")
         (sorted (keys (get_safe_settings env))), Ok objs) ∧
    map pk objs = sorted (keys (get_safe_settings env)) ∧
    Forall (λ obj, ∃ v, get_safe_settings env !! pk obj = Some v ∧
                        cleansed obj = cleanse_setting env (pk obj) v) objs.
Proof.
  apply comprehension_settings.
  rewrite Forall_forall. intros k.
  rewrite sorted_Permutation. apply elem_of_keys.
Qed.

(** X7: the list and the detail endpoint of the settings resource
    agree: an object is in the list exactly when the detail endpoint,
    asked for the object's key, returns that same object. *)
Theorem settings_list_detail_agree env request request' kwargs :
  ∃ objs,
    outcome (SettingsResource.obj_get_list env request kwargs) = Ok objs ∧
    ∀ obj,
      obj ∈ objs ↔
      outcome (SettingsResource.obj_get env request'
                 {[ "pk" := pk obj ]}) = Ok obj.
Proof.
  destruct (settings_list_run env) as (objs & Hrun & Hpk & Hval).
  exists objs. unfold SettingsResource.obj_get_list. rewrite Hrun.
  split; [done|]. intros [K c].
  rewrite (settings_obj_get_unfold env request' _ K)
    by apply lookup_singleton_eq.
  rewrite Forall_forall in Hval. simpl. split.
  - intros Hin. destruct (Hval _ Hin) as (v & Hv & Hc).
    simpl in Hv, Hc. rewrite Hv. unfold outcome. simpl. by rewrite Hc.
  - destruct (get_safe_settings env !! K) as [v|] eqn:HK;
      unfold outcome; simpl; [|done].
    intros [= <-].
    assert (K ∈ map pk objs) as HKin.
    { rewrite Hpk, sorted_Permutation. apply elem_of_keys. by exists v. }
    apply list_elem_of_fmap in HKin as ([K' c'] & HK' & Hin).
    simpl in HK'. subst K'.
    destruct (Hval _ Hin) as (v' & Hv' & Hc'). simpl in Hv', Hc'.
    rewrite HK in Hv'. injection Hv' as <-. by rewrite <-Hc'.
Qed.

(** X8: the listing does not depend on the order in which the snapshot
    hands out its keys: sorting any rearrangement of the keys and
    constructing the objects gives the result of [obj_get_list]. *)
Theorem settings_list_order_independent env request kwargs
    (ks : list string) :
  ks ≡ₚ keys (get_safe_settings env) →
  comprehension (SettingsResource.new_SettingsObject env) (sorted ks) =
    SettingsResource.obj_get_list env request kwargs.
Proof.
  intros Hperm. unfold SettingsResource.obj_get_list. f_equal.
  apply sorted_unique.
  - by rewrite sorted_Permutation.
  - apply (StronglySorted_merge_sort String.le).
Qed.

(** X9: the resource URI of a settings entry is reversed from its key
    alone, and if URL reversing tells keys apart, two entries of the
    listing with the same URI are the same entry. *)
Theorem settings_uris_distinct env request kwargs
    (reverse : string → gmap string string → result string) objs :
  (∀ k1 k2 uri,
     reverse "api_dispatch_detail"
       {[ "api_name" := "services"; "resource_name" := "settings";
          "pk" := k1 ]} = Ok uri →
     reverse "api_dispatch_detail"
       {[ "api_name" := "services"; "resource_name" := "settings";
          "pk" := k2 ]} = Ok uri →
     k1 = k2) →
  outcome (SettingsResource.obj_get_list env request kwargs) = Ok objs →
  ∀ obj1 obj2 uri,
    obj1 ∈ objs → obj2 ∈ objs →
    outcome (get_resource_uri reverse obj1) = Ok uri →
    outcome (get_resource_uri reverse obj2) = Ok uri →
    obj1 = obj2.
Proof.
  intros Hinj Hlist obj1 obj2 uri Hin1 Hin2 Huri1 Huri2.
  destruct (settings_list_run env) as (objs' & Hrun & Hpk & Hval).
  unfold SettingsResource.obj_get_list in Hlist. rewrite Hrun in Hlist.
  injection Hlist as <-.
  pose proof (Hinj _ _ _ Huri1 Huri2) as Hkey.
  rewrite Forall_forall in Hval.
  destruct (Hval _ Hin1) as (v1 & Hv1 & Hc1).
  destruct (Hval _ Hin2) as (v2 & Hv2 & Hc2).
  destruct obj1 as [K1 c1], obj2 as [K2 c2]. simpl in *. subst K2.
  rewrite Hv1 in Hv2. injection Hv2 as <-. by rewrite Hc1, Hc2.
Qed.

(** ** The status checker and the status resource: further behaviour *)

(** X10: for boolean attributes the representation of a status object
    determines the three flags: from the message of a [StatusError] one
    can read off which checks failed. *)
Theorem status_repr_determines_flags (c d s c' d' s' : bool) :
  StatusObject.__repr__ (mkAttrs (PyBool c) (PyBool d) (PyBool s)) =
  StatusObject.__repr__ (mkAttrs (PyBool c') (PyBool d') (PyBool s')) →
  c = c' ∧ d = d' ∧ s = s'.
Proof.
  destruct c, d, s, c', d', s'; intros Heq; try done;
    vm_compute in Heq; discriminate Heq.
Qed.

Lemma after_probes_unimplemented cls self :
  unimplemented (test_cache cls) ∨ unimplemented (test_db cls) ∨
  unimplemented (test_settings cls) →
  ∃ e, after_probes cls self = Raise e.
Proof.
  unfold after_probes. intros Hun.
  destruct (test_cache cls self) as [[r1 self1]|e] eqn:H1; [|by eexists].
  destruct (test_db cls self1) as [[r2 self2]|e] eqn:H2; [|by eexists].
  destruct (test_settings cls self2) as [[r3 self3]|e] eqn:H3; [|by eexists].
  destruct Hun as [Hun|[Hun|Hun]].
  - rewrite Hun in H1. discriminate H1.
  - rewrite Hun in H2. discriminate H2.
  - rewrite Hun in H3. discriminate H3.
Qed.

(** X11: a probe set that leaves any of the three probes as the module
    defines it, [test_settings] included, never passes: [test] raises from
    every state of the object and [StatusResource.obj_get] never returns
    an object; when [test_cache] is the one left unimplemented, what is
    raised is its not-implemented error. *)
Theorem unimplemented_probe_never_passes env request kwargs cls :
  import_module env
    (default "services.services" (SERVICES_STATUS_MODULE env)) = Ok cls →
  unimplemented (test_cache cls) ∨ unimplemented (test_db cls) ∨
  unimplemented (test_settings cls) →
  (∀ self, ∃ e, outcome (StatusObject.test cls self) = Raise e) ∧
  (∃ e, outcome (StatusResource.obj_get env request kwargs) = Raise e) ∧
  (unimplemented (test_cache cls) →
   outcome (StatusResource.obj_get env request kwargs) =
     Raise (new_exn NotImplementedError "")).
Proof.
  intros Hcls Hun. split_and!.
  - intros self. rewrite test_outcome.
    destruct (after_probes_unimplemented cls self Hun) as [e ->].
    by exists e.
  - rewrite (status_obj_get_outcome _ _ _ _ Hcls).
    destruct (after_probes_unimplemented cls (class_attrs cls) Hun)
      as [e ->].
    by exists e.
  - intros Hcache. rewrite (status_obj_get_outcome _ _ _ _ Hcls).
    unfold after_probes. by rewrite Hcache.
Qed.

Lemma test_trace_invokes cls self :
  forallb is_invoke (trace (StatusObject.test cls self)) = true.
Proof.
  rewrite test_unfold.
  destruct (test_cache cls self) as [[r1 self1]|e]; [|done].
  destruct (test_db cls self1) as [[r2 self2]|e]; [|done].
  by destruct (test_settings cls self2) as [[r3 self3]|e].
Qed.

Lemma status_obj_get_trace env request kwargs :
  trace (StatusResource.obj_get env request kwargs) =
  Print (default "services.services" (SERVICES_STATUS_MODULE env)) ::
  match import_module env
          (default "services.services" (SERVICES_STATUS_MODULE env)) with
  | Ok cls => trace (StatusObject.test cls (class_attrs cls))
  | Raise _ => []
  end.
Proof.
  unfold StatusResource.obj_get, lift, emit.
  destruct (import_module env _) as [cls|e]; [|done].
  rewrite !trace_bind. unfold outcome at 1, trace at 1 2. simpl.
  rewrite trace_bind.
  destruct (StatusObject.test cls (class_attrs cls)) as [tr [[b self]|e]];
    unfold trace, outcome; simpl; [|done].
  destruct b; simpl; by rewrite app_nil_r.
Qed.

(** X12: [StatusResource.obj_get] first prints the path of the status
    module, ['services.services'] when SERVICES_STATUS_MODULE is not set,
    on every request; all it does besides is to invoke probes. When the
    module cannot be imported, the import error is raised and no probe is
    invoked. *)
Theorem status_obj_get_prints_then_imports env request kwargs :
  let client := default "services.services" (SERVICES_STATUS_MODULE env) in
  ∃ rest,
    trace (StatusResource.obj_get env request kwargs) =
      Print client :: rest ∧
    forallb is_invoke rest = true ∧
    (SERVICES_STATUS_MODULE env = None → client = "services.services") ∧
    (∀ e, import_module env client = Raise e →
       rest = [] ∧
       outcome (StatusResource.obj_get env request kwargs) = Raise e).
Proof.
  intros client. rewrite status_obj_get_trace. fold client.
  eexists. split; [reflexivity|]. split_and!.
  - destruct (import_module env client) as [cls|e]; [|done].
    apply test_trace_invokes.
  - unfold client. by intros ->.
  - intros e He. rewrite He. split; [done|].
    unfold StatusResource.obj_get. fold client.
    rewrite !outcome_bind. simpl. unfold lift. by rewrite He.
Qed.

Lemma falsy_not_truthy (a : pyatom) :
  a ∈ [PyNone; PyBool false; PyStr ""] → truthy a = false.
Proof.
  rewrite !elem_of_cons.
  intros [-> | [-> | [-> | Hin]]]; try done.
  by apply elem_of_nil in Hin.
Qed.

(** X13: [StatusResource.obj_get] returns an object exactly when the
    three probes return and leave all three attributes true in the sense
    of Python's truth value testing: any of the three attributes left at
    None, False or the empty string makes it raise a [StatusError] that
    carries the representation of the object, whatever the other two
    are. *)
Theorem status_passes_iff_all_truthy env request kwargs cls self :
  import_module env
    (default "services.services" (SERVICES_STATUS_MODULE env)) = Ok cls →
  (outcome (StatusResource.obj_get env request kwargs) = Ok self ↔
   after_probes cls (class_attrs cls) = Ok self ∧
   truthy (cache self) = true ∧ truthy (db self) = true ∧
   truthy (settings self) = true) ∧
  (after_probes cls (class_attrs cls) = Ok self →
   cache self ∈ [PyNone; PyBool false; PyStr ""] ∨
   db self ∈ [PyNone; PyBool false; PyStr ""] ∨
   settings self ∈ [PyNone; PyBool false; PyStr ""] →
   outcome (StatusResource.obj_get env request kwargs) =
     Raise (new_exn StatusError (StatusObject.__repr__ self))).
Proof.
  intros Hcls. rewrite (status_obj_get_outcome _ _ _ _ Hcls). split.
  - destruct (after_probes cls (class_attrs cls)) as [self'|e].
    + destruct (truthy (cache self')) eqn:Hc, (truthy (db self')) eqn:Hd,
        (truthy (settings self')) eqn:Hs; simpl; split;
        try (intros [= <-]; done);
        try (intros ([= <-] & ? & ? & ?); congruence).
    + split; [done|]. by intros ([=] & _).
  - intros -> Hin.
    assert (truthy (cache self) && truthy (db self) &&
            truthy (settings self) = false) as ->; [|done].
    destruct Hin as [Hin|[Hin|Hin]]; apply falsy_not_truthy in Hin;
      rewrite Hin; by rewrite ?andb_false_r.
Qed.

Lemma mail_sent_app tr1 tr2 :
  mail_sent (tr1 ++ tr2) = mail_sent tr1 || mail_sent tr2.
Proof. unfold mail_sent. apply existsb_app. Qed.

Lemma invokes_hold_no_mail tr :
  forallb is_invoke tr = true → mail_sent tr = false.
Proof.
  unfold mail_sent. induction tr as [|ev tr IH]; [done|]. simpl.
  intros [Hev Htr]%andb_prop. rewrite (IH Htr). by destruct ev.
Qed.

(** X14: a failed status check is notified to the administrators
    exactly when debug mode is off, and when no error is raised while that
    notification is built, it is answered with status 500 and the
    representation of the object as error message. *)
Theorem status_failure_notifies_unless_debug env
    (dehydrate : StatusAttrs → pyval) request kwargs cls self :
  import_module env
    (default "services.services" (SERVICES_STATUS_MODULE env)) = Ok cls →
  after_probes cls (class_attrs cls) = Ok self →
  truthy (cache self) && truthy (db self) && truthy (settings self)
    = false →
  let response :=
    wrap_view env dehydrate request
      (StatusResource.obj_get env (Some request) kwargs) in
  (notification_error env request
     (new_exn StatusError (StatusObject.__repr__ self)) = None →
   outcome response =
     Ok {| status_code := 500;
           content := serialize env (PyDict [
             ("error_message",
                PyAtom (PyStr (StatusObject.__repr__ self)));
             ("error_code", PyAtom (PyStr "StatusError"));
             ("error_data", PyDict [])]);
           content_type := Some "application/json; charset=utf-8" |}) ∧
  mail_sent (trace response) = negb (DEBUG env).
Proof.
  intros Hcls Hrun Hfail response.
  pose proof (status_obj_get_outcome env (Some request) kwargs cls Hcls)
    as Hout.
  pose proof (status_obj_get_trace env (Some request) kwargs) as Htr.
  rewrite Hrun, Hfail in Hout. rewrite Hcls in Htr.
  unfold response.
  destruct (StatusResource.obj_get env (Some request) kwargs) as [tr out].
  unfold outcome in Hout. unfold trace at 1 in Htr. simpl in Hout, Htr.
  subst out tr. rewrite wrap_view_500 by done.
  split.
  - intros Hmail. unfold outcome at 1. simpl.
    by rewrite handle_500_outcome.
  - unfold trace at 1. simpl. rewrite mail_sent_app.
    rewrite (invokes_hold_no_mail _ (test_trace_invokes _ _)).
    rewrite handle_500_trace. unfold mail_sent. simpl.
    rewrite orb_false_r. by destruct (DEBUG env).
Qed.

(** X15: what [repr(request)] does and a failure of the mail transport
    never show in the result of [_handle_500]: when [repr(request)] raises
    and delivery fails, the 500 JSON error response is returned all the
    same, and the notification, if due, goes out with the fallback text
    and with [fail_silently] set. *)
Theorem repr_and_delivery_failures_are_silent
    env request exception (e_repr e_mail : exn) :
  let env' := with_mail_backend (λ _ _, DeliveryError e_mail) env in
  let request' := with_repr (Raise e_repr) request in
  outcome (_handle_500 env' request' exception) =
    Ok (HttpApplicationError (serialize env (error_payload exception))
          "application/json; charset=utf-8") ∧
  List.filter is_mail
    (trace (_handle_500 env' request' exception)) =
    if DEBUG env || not_found_kind exception then []
    else [MailAdmins (mail_subject env request)
            (format_exception env exception +:+ nl +:+ nl +:+
             "Request repr() unavailable") true].
Proof.
  intros env' request'. split.
  - rewrite handle_500_outcome; [done|].
    unfold notification_error. simpl.
    by destruct (DEBUG env || not_found_kind exception).
  - rewrite handle_500_trace. simpl.
    by destruct (DEBUG env || not_found_kind exception).
Qed.

(** ** The further properties at concrete inputs *)

Lemma notification_subject_witness :
  List.filter is_mail
    (trace (_handle_500 default_env an_internal_request
              (new_exn TestError "This is a test."))) =
  [MailAdmins "Error (internal IP): /services/error/"
     ("This is a test." +:+ nl +:+ nl +:+ "<WSGIRequest>") true].
Proof.
  pose proof (notification_subject_and_message default_env
                an_internal_request (new_exn TestError "This is a test.")
                "<WSGIRequest>" eq_refl eq_refl eq_refl) as [H _].
  exact H.
Defined.

Lemma settings_obj_get_raises_witness :
  ∃ e, SettingsResource.obj_get settings_env a_request ∅ = ([], Raise e) ∧
       e_class e = KeyError.
Proof.
  destruct (settings_obj_get_raises_only settings_env a_request ∅)
    as [H _].
  apply H. reflexivity.
Defined.

Lemma settings_list_order_witness :
  ["TIME_ZONE"; "SECRET_KEY"] ≡ₚ keys (get_safe_settings settings_env) ∧
  comprehension (SettingsResource.new_SettingsObject settings_env)
    (sorted ["TIME_ZONE"; "SECRET_KEY"]) =
  SettingsResource.obj_get_list settings_env a_request ∅.
Proof.
  assert (["TIME_ZONE"; "SECRET_KEY"] ≡ₚ
          keys (get_safe_settings settings_env)) as Hperm.
  { change (keys (get_safe_settings settings_env))
      with ["SECRET_KEY"; "TIME_ZONE"].
    apply perm_swap. }
  split; [exact Hperm|].
  exact (settings_list_order_independent settings_env a_request ∅ _ Hperm).
Defined.

Lemma reverse_to_key_pk (key : string) :
  reverse_to_key "api_dispatch_detail"
    {[ "api_name" := "services"; "resource_name" := "settings";
       "pk" := key ]} = Ok key.
Proof.
  unfold reverse_to_key.
  rewrite !lookup_insert_ne by done.
  by rewrite lookup_singleton_eq.
Qed.

Lemma settings_uris_witness :
  outcome (SettingsResource.obj_get_list settings_env a_request ∅) =
    Ok [ {| pk := "SECRET_KEY";
            cleansed := PyAtom (PyStr "********************") |};
         {| pk := "TIME_ZONE"; cleansed := PyAtom (PyStr "UTC") |} ] ∧
  outcome (get_resource_uri reverse_to_key
             {| pk := "TIME_ZONE"; cleansed := PyAtom (PyStr "UTC") |}) =
    Ok "TIME_ZONE" ∧
  {| pk := "TIME_ZONE"; cleansed := PyAtom (PyStr "UTC") |} =
  {| pk := "TIME_ZONE"; cleansed := PyAtom (PyStr "UTC") |}.
Proof.
  set (entry := {| pk := "TIME_ZONE"; cleansed := PyAtom (PyStr "UTC") |}).
  set (secret := {| pk := "SECRET_KEY";
                    cleansed := PyAtom (PyStr "********************") |}).
  assert (outcome (SettingsResource.obj_get_list settings_env a_request ∅)
          = Ok [secret; entry]) as Hlist by (vm_compute; reflexivity).
  assert (outcome (get_resource_uri reverse_to_key entry) = Ok "TIME_ZONE")
    as Huri by (vm_compute; reflexivity).
  split_and!; [exact Hlist|exact Huri|].
  refine (settings_uris_distinct settings_env a_request ∅ reverse_to_key
            [secret; entry] _ Hlist entry entry "TIME_ZONE" _ _ Huri Huri).
  - intros k1 k2 uri. rewrite !reverse_to_key_pk. congruence.
  - apply list_elem_of_further, list_elem_of_here.
  - apply list_elem_of_further, list_elem_of_here.
Defined.

Lemma status_repr_witness :
  StatusObject.__repr__
    (mkAttrs (PyBool true) (PyBool false) (PyBool true)) =
  "<Status: cache: True, db: False, settings: True>" ∧
  true = true ∧ false = false ∧ true = true.
Proof.
  split; [reflexivity|].
  exact (status_repr_determines_flags true false true true false true
           eq_refl).
Defined.

Lemma unimplemented_probe_witness :
  unimplemented (test_settings cache_only) ∧
  ∃ e, outcome (StatusResource.obj_get unfinished_env None ∅) = Raise e.
Proof.
  assert (unimplemented (test_settings cache_only)) as Hun
    by (intros self; reflexivity).
  split; [exact Hun|].
  destruct (unimplemented_probe_never_passes unfinished_env None ∅
              cache_only eq_refl (or_intror (or_intror Hun)))
    as (_ & H & _).
  exact H.
Defined.

Lemma status_passes_witness :
  outcome (StatusResource.obj_get healthy_env None ∅) =
    Ok (mkAttrs (PyBool true) (PyBool true) (PyBool true)) ∧
  outcome (StatusResource.obj_get failing_env None ∅) =
    Raise (new_exn StatusError
             "<Status: cache: True, db: False, settings: True>").
Proof.
  split.
  - destruct (status_passes_iff_all_truthy healthy_env None ∅
                (reporting true true)
                (mkAttrs (PyBool true) (PyBool true) (PyBool true)) eq_refl)
      as [[_ H] _].
    apply H. repeat split; reflexivity.
  - destruct (status_passes_iff_all_truthy failing_env None ∅
                (reporting true false)
                (mkAttrs (PyBool true) (PyBool false) (PyBool true)) eq_refl)
      as [_ H].
    apply (H eq_refl). right. left.
    apply list_elem_of_further, list_elem_of_here.
Defined.

Lemma status_failure_witness :
  outcome (wrap_view failing_env (λ _, PyDict []) a_request
             (StatusResource.obj_get failing_env (Some a_request) ∅)) =
    Ok (HttpApplicationError "" "application/json; charset=utf-8") ∧
  mail_sent
    (trace (wrap_view failing_env (λ _, PyDict []) a_request
              (StatusResource.obj_get failing_env (Some a_request) ∅))) =
  true.
Proof.
  destruct (status_failure_notifies_unless_debug failing_env
              (λ _, PyDict []) a_request ∅ (reporting true false)
              (mkAttrs (PyBool true) (PyBool false) (PyBool true))
              eq_refl eq_refl eq_refl) as [H1 H2].
  split; [exact (H1 eq_refl)|exact H2].
Defined.
